(** * The VMware Fusion driver of packer ([builder/vmware/driver.go])

    The driver is a thin layer over two vendor tools, [vmrun] and
    [vmware-vdiskmanager]: every operation builds a command line, runs it
    as a subprocess and looks at the outcome.  The development has three
    layers.

    - [GoLib]: the pieces of the Go standard library the driver calls and
      that are pure ([error] values, [os.IsNotExist], [strings.Split],
      [fmt.Sprintf], [exec.Command]).
    - [Env]: what the host decides ([filepath.Join], [filepath.Abs],
      [os.Stat], the outcome of a subprocess), kept abstract, so that the
      theorems hold for every host.
    - the driver itself, written in a state monad over the driver object,
      the host and the trace of what the driver asked of the host.

    [Host] is a small simulated machine on which the driver is run on
    concrete inputs. *)

From Stdlib Require Import String Ascii List ZArith Bool Lia DecimalString.
Import ListNotations.
Open Scope string_scope.

(* ================================================================= *)
(** ** The Go standard library, as far as the driver uses it *)

Module GoLib.

(** The [syscall.Errno] values that matter to the driver. *)
Inductive errno : Type := ENOENT | EACCES | ENOTDIR | EIO.

(** Go's [error] interface, closed over the dynamic types that reach the
    driver.  A nil error is [None] in [option error].

    [ExitError] is [*exec.ExitError]: it wraps the process state only.
    The driver installs its own buffer as [cmd.Stderr] and calls [Run],
    so nothing of the standard error stream is ever stored in it. *)
Inductive error : Type :=
| errorString (s : string)                      (* errors.New, fmt.Errorf *)
| ErrNotExist                                   (* the sentinel os.ErrNotExist *)
| Errno (e : errno)                             (* syscall.Errno *)
| PathError (Op Path : string) (Err : error)    (* *os.PathError *)
| ExitError (status : Z).                       (* *exec.ExitError *)

Definition strerror (e : errno) : string :=
  match e with
  | ENOENT => "no such file or directory"
  | EACCES => "permission denied"
  | ENOTDIR => "not a directory"
  | EIO => "input/output error"
  end.

Definition itoa (z : Z) : string := NilZero.string_of_int (Z.to_int z).

(** The [Error()] method. *)
Fixpoint Error (e : error) : string :=
  match e with
  | errorString s => s
  | ErrNotExist => "file does not exist"
  | Errno n => strerror n
  | PathError op path err => op ++ " " ++ path ++ ": " ++ Error err
  | ExitError st => "exit status " ++ itoa st
  end.

(** [os.IsNotExist]: unwraps one [PathError], then compares with
    [ENOENT] and with the sentinel. *)
Definition os_IsNotExist (err : option error) : bool :=
  match err with
  | None => false
  | Some e =>
      let underlying := match e with PathError _ _ pe => pe | _ => e end in
      match underlying with
      | Errno ENOENT => true
      | ErrNotExist => true
      | _ => false
      end
  end.

(** The line feed, Go's ["\n"]. *)
Definition LF : ascii := ascii_of_nat 10.

(** [strings.Split(s, sep)] for a separator of one byte: the pieces of
    [s] between the separators, one more piece than there are
    separators. *)
Fixpoint strings_Split (s : string) (sep : ascii) : list string :=
  match s with
  | EmptyString => [EmptyString]
  | String c rest =>
      if Ascii.eqb c sep then EmptyString :: strings_Split rest sep
      else match strings_Split rest sep with
           | piece :: pieces => String c piece :: pieces
           | [] => [String c EmptyString]
           end
  end.

(** [strings.Join]. *)
Fixpoint strings_Join (elems : list string) (sep : string) : string :=
  match elems with
  | [] => ""
  | [e] => e
  | e :: rest => e ++ sep ++ strings_Join rest sep
  end.

(** [strings.HasPrefix]. *)
Fixpoint strings_HasPrefix (s prefix : string) : bool :=
  match prefix, s with
  | EmptyString, _ => true
  | String _ _, EmptyString => false
  | String p prefix', String c s' =>
      Ascii.eqb c p && strings_HasPrefix s' prefix'
  end.

(** [strings.Contains], by a scan for a prefix at every position. *)
Fixpoint strings_Contains (s substr : string) : bool :=
  strings_HasPrefix s substr
  || match s with
     | EmptyString => false
     | String _ rest => strings_Contains rest substr
     end.

(** Operands of the formatting functions: the driver formats strings
    and one slice of strings. *)
Inductive fmtArg : Type :=
| AStr (s : string)
| AStrs (l : list string).

Definition render (a : fmtArg) : string :=
  match a with
  | AStr s => s
  | AStrs l => "[" ++ strings_Join l " " ++ "]"
  end.

(** [fmt.Sprintf] for the verbs the driver uses, [%s] and [%v], which
    print a string as it is and a slice as [[a b c]]. *)
Fixpoint fmt_Sprintf (format : string) (args : list fmtArg) : string :=
  match format with
  | String "%" (String v rest) =>
      if Ascii.eqb v "s" || Ascii.eqb v "v" then
        match args with
        | a :: args' => render a ++ fmt_Sprintf rest args'
        | [] => "%!" ++ String v "(MISSING)" ++ fmt_Sprintf rest []
        end
      else String "%" (String v (fmt_Sprintf rest args))
  | String c rest => String c (fmt_Sprintf rest args)
  | EmptyString => EmptyString
  end.

Definition fmt_Errorf (format : string) (args : list fmtArg) : error :=
  errorString (fmt_Sprintf format args).

(** [exec.Cmd], the fields the driver reads. *)
Record Cmd : Type := { Path : string; Args : list string }.

(** [exec.Command(name, arg...)] for a name that holds a path
    separator, as a name joined with [Contents/Library/<tool>] does:
    [Path] is the name itself, with no search of [$PATH], and [Args]
    starts with the name. *)
Definition exec_Command (name : string) (arg : list string) : Cmd :=
  {| Path := name; Args := name :: arg |}.

(** How a subprocess ends: it could not be started, or it ran, wrote its
    two streams and exited with a status. *)
Inductive ProcResult : Type :=
| LaunchFailed (e : error)
| Ran (stdout stderr : string) (status : Z).

(** [os.FileInfo], which the driver throws away. *)
Record FileInfo : Type := { Name : string; IsDir : bool }.

End GoLib.
Export GoLib.

Arguments os_IsNotExist : simpl never.

(* ================================================================= *)
(** ** The host *)

(** What the machine under the driver decides, over a host state [W].
    Path resolution and [stat] read the host; a subprocess may change
    it (a disk appears, a machine starts).  [filepath.Join] depends on
    the platform only.  [strings.TrimSpace], which shapes nothing but
    log lines, is left open with them. *)
Class Env (W : Type) : Type := {
  filepath_Join : list string -> string;
  filepath_Abs : string -> W -> string * option error;
  os_Stat : string -> W -> option FileInfo * option error;
  spawn : Cmd -> W -> ProcResult * W;
  strings_TrimSpace : string -> string
}.

(** [cmd.Run()] with [cmd.Stdout] and [cmd.Stderr] set to two buffers:
    the contents of the buffers afterwards, and the error of [Run].  A
    status other than zero is reported as an [ExitError] of that status;
    a process that never started has written nothing. *)
Definition cmd_Run {W : Type} {E : Env W} (c : Cmd) (w : W)
  : (string * string * option error) * W :=
  match spawn c w with
  | (LaunchFailed e, w') => (("", "", Some e), w')
  | (Ran stdout stderr status, w') =>
      ((stdout, stderr,
        if Z.eqb status 0 then None else Some (ExitError status)), w')
  end.

(* ================================================================= *)
(** ** The driver *)

(** [type Fusion5Driver struct { AppPath string }] *)
Record Fusion5Driver : Type := { AppPath : string }.

(** What the driver asks of the host, in the order it asks. *)
Inductive Event : Type :=
| EvLog (line : string)
| EvAbs (path : string)
| EvStat (name : string)
| EvRun (c : Cmd).

(** The state a method runs in: the driver object its receiver points
    to, the host, and the events so far (oldest first). *)
Record State (W : Type) : Type := mkState {
  driver : Fusion5Driver;
  world : W;
  trace : list Event
}.
Arguments mkState {W}.
Arguments driver {W}.
Arguments world {W}.
Arguments trace {W}.

(** The subprocesses in a trace. *)
Fixpoint runs (t : list Event) : list Cmd :=
  match t with
  | [] => []
  | EvRun c :: t' => c :: runs t'
  | _ :: t' => runs t'
  end.

(** The paths handed to [os.Stat] in a trace. *)
Fixpoint stats (t : list Event) : list string :=
  match t with
  | [] => []
  | EvStat p :: t' => p :: stats t'
  | _ :: t' => stats t'
  end.

(** The log lines in a trace. *)
Fixpoint logs (t : list Event) : list string :=
  match t with
  | [] => []
  | EvLog l :: t' => l :: logs t'
  | _ :: t' => logs t'
  end.

Definition M (W A : Type) : Type := State W -> A * State W.

Definition ret {W A : Type} (a : A) : M W A := fun s => (a, s).

Definition bind {W A B : Type} (m : M W A) (k : A -> M W B) : M W B :=
  fun s => let (a, s') := m s in k a s'.

Declare Scope go_scope.
Delimit Scope go_scope with go.
Notation "x <- m ;; k" := (bind m (fun x => k))
  (at level 61, m at next level, right associativity) : go_scope.
Notation "' pat <- m ;; k" :=
  (bind m (fun x => match x with pat => k end))
  (at level 61, pat pattern, m at next level, right associativity) : go_scope.
Notation "m ;;; k" := (bind m (fun _ => k))
  (at level 61, right associativity) : go_scope.

Section Driver.

Context {W : Type} {E : Env W}.
Local Open Scope go_scope.

(** Reading [d.AppPath] through the receiver. *)
Definition d_AppPath : M W string := fun s => (AppPath (driver s), s).

Definition emit (e : Event) : M W unit :=
  fun s => (tt, mkState (driver s) (world s) (trace s ++ [e])).

(** [log.Printf]: the message of one line in the log. *)
Definition log_Printf (format : string) (args : list fmtArg) : M W unit :=
  emit (EvLog (fmt_Sprintf format args)).

Definition Abs (path : string) : M W (string * option error) :=
  emit (EvAbs path) ;;;
  fun s => (filepath_Abs path (world s), s).

Definition Stat (name : string) : M W (option FileInfo * option error) :=
  emit (EvStat name) ;;;
  fun s => (os_Stat name (world s), s).

Definition Run (c : Cmd) : M W (string * string * option error) :=
  emit (EvRun c) ;;;
  fun s => let (r, w') := cmd_Run c (world s) in
           (r, mkState (driver s) w' (trace s)).

(** [func (d *Fusion5Driver) vdiskManagerPath() string] *)
Definition vdiskManagerPath : M W string :=
  app <- d_AppPath ;;
  ret (filepath_Join [app; "Contents"; "Library"; "vmware-vdiskmanager"]).

(** [func (d *Fusion5Driver) vmrunPath() string] *)
Definition vmrunPath : M W string :=
  app <- d_AppPath ;;
  ret (filepath_Join [app; "Contents"; "Library"; "vmrun"]).

(** [func (d *Fusion5Driver) runAndLog(cmd *exec.Cmd) (string, string, error)] *)
Definition runAndLog (cmd : Cmd) : M W (string * string * option error) :=
  log_Printf "Executing: %s %v" [AStr (Path cmd); AStrs (tl (Args cmd))] ;;;
  '(stdout, stderr, err) <- Run cmd ;;
  log_Printf "stdout: %s" [AStr (strings_TrimSpace stdout)] ;;;
  log_Printf "stderr: %s" [AStr (strings_TrimSpace stderr)] ;;;
  ret (stdout, stderr, err).

(** [func (d *Fusion5Driver) CreateDisk(output string, size string) error] *)
Definition CreateDisk (output size : string) : M W (option error) :=
  name <- vdiskManagerPath ;;
  let cmd := exec_Command name
               ["-c"; "-s"; size; "-a"; "lsilogic"; "-t"; "1"; output] in
  '(_, _, err) <- runAndLog cmd ;;
  match err with
  | Some _ => ret err
  | None => ret None
  end.

(** The loop of [IsRunning] over the lines of the output: the first
    line equal to [vmxPath] ends it with [true]. *)
Fixpoint anyLineIs (lines : list string) (vmxPath : string) : bool :=
  match lines with
  | [] => false
  | line :: rest =>
      if String.eqb line vmxPath then true else anyLineIs rest vmxPath
  end.

(** [func (d *Fusion5Driver) IsRunning(vmxPath string) (bool, error)] *)
Definition IsRunning (vmxPath : string) : M W (bool * option error) :=
  '(vmxPath, err) <- Abs vmxPath ;;
  match err with
  | Some _ => ret (false, err)
  | None =>
      name <- vmrunPath ;;
      let cmd := exec_Command name ["-T"; "fusion"; "list"] in
      '(stdout, _, err) <- runAndLog cmd ;;
      match err with
      | Some _ => ret (false, err)
      | None => ret (anyLineIs (strings_Split stdout LF) vmxPath, None)
      end
  end.

(** [func (d *Fusion5Driver) Start(vmxPath string) error] *)
Definition Start (vmxPath : string) : M W (option error) :=
  name <- vmrunPath ;;
  let cmd := exec_Command name ["-T"; "fusion"; "start"; vmxPath; "gui"] in
  '(_, _, err) <- runAndLog cmd ;;
  match err with
  | Some _ => ret err
  | None => ret None
  end.

(** [func (d *Fusion5Driver) Stop(vmxPath string) error] *)
Definition Stop (vmxPath : string) : M W (option error) :=
  name <- vmrunPath ;;
  let cmd := exec_Command name ["-T"; "fusion"; "stop"; vmxPath; "hard"] in
  '(_, _, err) <- runAndLog cmd ;;
  match err with
  | Some _ => ret err
  | None => ret None
  end.

(** [func (d *Fusion5Driver) Verify() error]: three existence checks,
    each returning at once when [os.Stat] reports an error. *)
Definition Verify : M W (option error) :=
  app <- d_AppPath ;;
  '(_, err) <- Stat app ;;
  match err with
  | Some _ =>
      if os_IsNotExist err then
        app <- d_AppPath ;;
        ret (Some (fmt_Errorf "Fusion application not found at path: %s"
                              [AStr app]))
      else ret err
  | None =>
  name <- vmrunPath ;;
  '(_, err) <- Stat name ;;
  match err with
  | Some _ =>
      if os_IsNotExist err then
        name <- vmrunPath ;;
        ret (Some (fmt_Errorf
                     "Critical application 'vmrun' not found at path: %s"
                     [AStr name]))
      else ret err
  | None =>
  name <- vdiskManagerPath ;;
  '(_, err) <- Stat name ;;
  match err with
  | Some _ =>
      if os_IsNotExist err then
        name <- vdiskManagerPath ;;
        ret (Some (fmt_Errorf
                     "Critical application vdisk manager not found at path: %s"
                     [AStr name]))
      else ret err
  | None => ret None
  end end end.

End Driver.

(* ================================================================= *)
(** ** A simulated host *)

(** A machine with a handful of files on which the two vendor tools are
    imitated closely enough to run the driver: [vmrun list] prints a
    count and one path per line, [start] and [stop] change the set of
    running machines, the disk manager refuses to overwrite a file. *)
Module Host.

Record Machine : Type := {
  cwd : option string;     (* [None]: the working directory is gone *)
  files : list string;     (* the paths that exist *)
  locked : list string;    (* paths under a directory without search permission *)
  powered : list string    (* the .vmx files of the running machines *)
}.

Definition mem (p : string) (l : list string) : bool :=
  existsb (String.eqb p) l.

Fixpoint strs_eqb (a b : list string) : bool :=
  match a, b with
  | [], [] => true
  | x :: a', y :: b' => String.eqb x y && strs_eqb a' b'
  | _, _ => false
  end.

(** Joining clean elements: the elements that are not empty, with a
    slash between them. *)
Definition join (elem : list string) : string :=
  strings_Join (filter (fun e => negb (String.eqb e "")) elem) "/".

Definition abs (path : string) (m : Machine) : string * option error :=
  if strings_HasPrefix path "/" then (path, None)
  else match cwd m with
       | Some wd => (join [wd; path], None)
       | None => ("", Some (Errno ENOENT))
       end.

Definition stat (name : string) (m : Machine)
  : option FileInfo * option error :=
  if mem name (locked m) then
    (None, Some (PathError "stat" name (Errno EACCES)))
  else if mem name (files m) then
    (Some {| Name := name; IsDir := false |}, None)
  else (None, Some (PathError "stat" name (Errno ENOENT))).

Definition line (s : string) : string := s ++ String LF "".

Definition tool (c : Cmd) (m : Machine) : ProcResult * Machine :=
  match tl (Args c) with
  | [t; f; verb] =>
      if strs_eqb [t; f; verb] ["-T"; "fusion"; "list"] then
        (Ran (line ("Total running VMs: "
                    ++ itoa (Z.of_nat (length (powered m))))
              ++ String.concat "" (map line (powered m))) "" 0, m)
      else (Ran "" (line "Error: Unrecognized command") 255, m)
  | [t; f; verb; vmx; mode] =>
      if strs_eqb [t; f; verb] ["-T"; "fusion"; "start"] then
        if mem vmx (files m) then
          (Ran "" "" 0,
           {| cwd := cwd m; files := files m; locked := locked m;
              powered := vmx :: powered m |})
        else (Ran "" (line ("Error: Cannot open VM: " ++ vmx)) 255, m)
      else if strs_eqb [t; f; verb] ["-T"; "fusion"; "stop"] then
        if mem vmx (powered m) then
          (Ran "" "" 0,
           {| cwd := cwd m; files := files m; locked := locked m;
              powered := filter (fun p => negb (String.eqb p vmx))
                                (powered m) |})
        else (Ran "" (line "Error: The virtual machine is not powered on")
                  255, m)
      else (Ran "" (line "Error: Unrecognized command") 255, m)
  | [c'; s'; size; a; adapter; t; type; output] =>
      if strs_eqb [c'; s'; a; t] ["-c"; "-s"; "-a"; "-t"] then
        if mem output (files m) then
          (Ran "" (line "Failed to create disk: The file already exists")
               1, m)
        else
          (Ran (line "Virtual disk creation successful.") "" 0,
           {| cwd := cwd m; files := output :: files m;
              locked := locked m; powered := powered m |})
      else (Ran "" (line "Error: Unrecognized command") 255, m)
  | _ => (Ran "" (line "Error: Unrecognized command") 255, m)
  end.

(** Starting a program that is not there fails before anything runs. *)
Definition exec (c : Cmd) (m : Machine) : ProcResult * Machine :=
  if mem (Path c) (files m) then tool c m
  else (LaunchFailed (PathError "fork/exec" (Path c) (Errno ENOENT)), m).

Definition isSpace (c : ascii) : bool :=
  existsb (Nat.eqb (nat_of_ascii c)) [9; 10; 11; 12; 13; 32]%nat.

Fixpoint trimLeft (s : string) : string :=
  match s with
  | String c rest => if isSpace c then trimLeft rest else s
  | EmptyString => EmptyString
  end.

Fixpoint trimRight (s : string) : string :=
  match s with
  | String c rest =>
      match trimRight rest with
      | EmptyString => if isSpace c then EmptyString else String c EmptyString
      | kept => String c kept
      end
  | EmptyString => EmptyString
  end.

#[global] Instance env : Env Machine := {|
  filepath_Join := join;
  filepath_Abs := abs;
  os_Stat := stat;
  spawn := exec;
  strings_TrimSpace := fun s => trimRight (trimLeft s)
|}.

Definition fusion : string := "/Applications/VMware Fusion.app".

Definition vmrun : string := fusion ++ "/Contents/Library/vmrun".

Definition vdisk : string := fusion ++ "/Contents/Library/vmware-vdiskmanager".

(** A machine with Fusion installed and one virtual machine running. *)
Definition mac : Machine := {|
  cwd := Some "/Users/dev";
  files := [fusion; vmrun; vdisk;
            "/Users/dev/vm.vmx"; "/other/vm.vmx"; "/Users/dev/disk.vmdk"];
  locked := [];
  powered := ["/Users/dev/vm.vmx"]
|}.

(** The same machine, where the running machines are listed under
    names that only look like [/Users/dev/vm.vmx]: with a space at the
    end, in capitals, and relative. *)
Definition lookalikes : Machine := {|
  cwd := cwd mac;
  files := files mac;
  locked := [];
  powered := ["/Users/dev/vm.vmx "; "/USERS/DEV/VM.VMX"; "vm.vmx"]
|}.

(** The working directory has been removed. *)
Definition lost : Machine := {|
  cwd := None; files := files mac; locked := []; powered := powered mac
|}.

(** Fusion without its runner. *)
Definition norunner : Machine := {|
  cwd := cwd mac;
  files := [fusion; vdisk];
  locked := [];
  powered := []
|}.

(** The bundle sits in a directory the user may not search. *)
Definition closed : Machine := {|
  cwd := cwd mac; files := files mac; locked := [fusion]; powered := []
|}.

Definition boot (w : Machine) : State Machine :=
  mkState {| AppPath := fusion |} w [].

(** A virtual machine whose file name holds a line feed. *)
Definition twoLines : string :=
  "/Users/dev/two" ++ String LF "lines.vmx".

(** The machine with that virtual machine running. *)
Definition odd : Machine := {|
  cwd := cwd mac;
  files := twoLines :: files mac;
  locked := [];
  powered := [twoLines]
|}.

End Host.

(** [type Driver interface]: the five operations a driver offers, over
    the state its methods run in. *)
Module Iface.
End Iface.


(** The events of one call of [runAndLog] on [c], given what the two
    buffers held afterwards. *)
Definition logged {W : Type} {E : Env W} (c : Cmd) (stdout stderr : string)
  : list Event :=
  [EvLog (fmt_Sprintf "Executing: %s %v" [AStr (Path c); AStrs (tl (Args c))]);
   EvRun c;
   EvLog (fmt_Sprintf "stdout: %s" [AStr (strings_TrimSpace stdout)]);
   EvLog (fmt_Sprintf "stderr: %s" [AStr (strings_TrimSpace stderr)])].




(** Assigning to [d.AppPath] from outside, between two calls. *)
Definition setAppPath {W : Type} (app : string) (s : State W) : State W :=
  mkState {| AppPath := app |} (world s) (trace s).

(** [x] stands in [s] as a whole piece: it starts at the start of [s]
    or after a separator, and ends at the end of [s] or before one. *)
Definition whole_piece (sep : ascii) (x s : string) : Prop :=
  exists before after : string,
    s = before ++ x ++ after /\
    (before = "" \/ exists b, before = b ++ String sep "") /\
    (after = "" \/ exists a, after = String sep a).

(* ================================================================= *)
(** ** Facts about the library model *)

Open Scope list_scope.

Lemma append_empty_r (s : string) : (s ++ "")%string = s.
Proof. induction s as [|c s IH]; simpl; [reflexivity | now rewrite IH]. Qed.

Lemma runs_app (t u : list Event) : runs (t ++ u) = runs t ++ runs u.
Proof.
  induction t as [|e t IH]; simpl; [reflexivity|].
  destruct e; simpl; now rewrite IH.
Qed.

Lemma stats_app (t u : list Event) : stats (t ++ u) = stats t ++ stats u.
Proof.
  induction t as [|e t IH]; simpl; [reflexivity|].
  destruct e; simpl; now rewrite IH.
Qed.

Lemma logs_app (t u : list Event) : logs (t ++ u) = logs t ++ logs u.
Proof.
  induction t as [|e t IH]; simpl; [reflexivity|].
  destruct e; simpl; now rewrite IH.
Qed.

(** [strings.Split] never returns an empty slice. *)
Lemma strings_Split_nonempty (s : string) (sep : ascii) :
  strings_Split s sep <> [].
Proof.
  destruct s as [|c s]; simpl; [discriminate|].
  destruct (Ascii.eqb c sep); [discriminate|].
  destruct (strings_Split s sep); discriminate.
Qed.

(** Joining the pieces with the separator gives the string back. *)
Lemma strings_Join_Split (s : string) (sep : ascii) :
  strings_Join (strings_Split s sep) (String sep "") = s.
Proof.
  induction s as [|c s IH]; simpl; [reflexivity|].
  destruct (Ascii.eqb c sep) eqn:Hc.
  - apply Ascii.eqb_eq in Hc; subst c.
    destruct (strings_Split s sep) as [|p ps] eqn:Hs.
    + now apply strings_Split_nonempty in Hs.
    + simpl in *. now rewrite IH.
  - destruct (strings_Split s sep) as [|p ps] eqn:Hs.
    + now apply strings_Split_nonempty in Hs.
    + destruct ps as [|q qs]; simpl in *; now rewrite <- IH.
Qed.

(** No piece holds the separator. *)
Lemma strings_Split_pieces (s : string) (sep : ascii) (piece : string) :
  In piece (strings_Split s sep) ->
  strings_Contains piece (String sep "") = false.
Proof.
  revert piece; induction s as [|c s IH]; intros piece; simpl.
  - intros [<-|[]]; reflexivity.
  - destruct (Ascii.eqb c sep) eqn:Hc.
    + intros [<-|Hin]; [reflexivity | now apply IH].
    + destruct (strings_Split s sep) as [|p ps] eqn:Hs.
      * now apply strings_Split_nonempty in Hs.
      * intros [<-|Hin].
        -- simpl. rewrite Hc. simpl.
           apply IH. now left.
        -- apply IH. now right.
Qed.

(** The loop finds a line exactly when the line is in the list. *)
Lemma anyLineIs_In (lines : list string) (vmxPath : string) :
  anyLineIs lines vmxPath = true <-> In vmxPath lines.
Proof.
  induction lines as [|l ls IH]; simpl.
  - split; [discriminate | tauto].
  - destruct (String.eqb l vmxPath) eqn:Hl.
    + apply String.eqb_eq in Hl. tauto.
    + apply String.eqb_neq in Hl. rewrite IH. intuition congruence.
Qed.

(** [os.IsNotExist] holds of no nil error. *)
Lemma os_IsNotExist_Some (err : option error) :
  os_IsNotExist err = true -> exists e, err = Some e.
Proof. destruct err as [e|]; [now exists e | discriminate]. Qed.

(* ================================================================= *)
(** ** What each method does, in one equation *)

Section Equations.

Context {W : Type} {E : Env W}.

Ltac run_monad :=
  cbv [bind ret emit log_Printf Run Abs Stat d_AppPath
       vmrunPath vdiskManagerPath]; simpl.

Lemma vmrunPath_eq (s : State W) :
  vmrunPath s =
  (filepath_Join [AppPath (driver s); "Contents"; "Library"; "vmrun"], s).
Proof. reflexivity. Qed.

Lemma vdiskManagerPath_eq (s : State W) :
  vdiskManagerPath s =
  (filepath_Join [AppPath (driver s); "Contents"; "Library";
                  "vmware-vdiskmanager"], s).
Proof. reflexivity. Qed.

Lemma runAndLog_eq (c : Cmd) (s : State W) :
  runAndLog c s =
  let r := cmd_Run c (world s) in
  (fst r,
   mkState (driver s) (snd r)
           (trace s ++ logged c (fst (fst (fst r))) (snd (fst (fst r))))).
Proof.
  unfold runAndLog, logged. run_monad.
  destruct (cmd_Run c (world s)) as [[[out err] e] w']; simpl.
  now rewrite <- !app_assoc.
Qed.

Lemma CreateDisk_eq (output size : string) (s : State W) :
  CreateDisk output size s =
  let c := exec_Command (fst (vdiskManagerPath s))
             ["-c"; "-s"; size; "-a"; "lsilogic"; "-t"; "1"; output] in
  let r := cmd_Run c (world s) in
  (snd (fst r),
   mkState (driver s) (snd r)
           (trace s ++ logged c (fst (fst (fst r))) (snd (fst (fst r))))).
Proof.
  unfold CreateDisk, bind at 1 2. rewrite vdiskManagerPath_eq, runAndLog_eq.
  simpl. destruct (cmd_Run _ _) as [[[out err] [e|]] w']; reflexivity.
Qed.

Lemma Start_eq (vmxPath : string) (s : State W) :
  Start vmxPath s =
  let c := exec_Command (fst (vmrunPath s))
             ["-T"; "fusion"; "start"; vmxPath; "gui"] in
  let r := cmd_Run c (world s) in
  (snd (fst r),
   mkState (driver s) (snd r)
           (trace s ++ logged c (fst (fst (fst r))) (snd (fst (fst r))))).
Proof.
  unfold Start, bind at 1 2. rewrite vmrunPath_eq, runAndLog_eq.
  simpl. destruct (cmd_Run _ _) as [[[out err] [e|]] w']; reflexivity.
Qed.

Lemma Stop_eq (vmxPath : string) (s : State W) :
  Stop vmxPath s =
  let c := exec_Command (fst (vmrunPath s))
             ["-T"; "fusion"; "stop"; vmxPath; "hard"] in
  let r := cmd_Run c (world s) in
  (snd (fst r),
   mkState (driver s) (snd r)
           (trace s ++ logged c (fst (fst (fst r))) (snd (fst (fst r))))).
Proof.
  unfold Stop, bind at 1 2. rewrite vmrunPath_eq, runAndLog_eq.
  simpl. destruct (cmd_Run _ _) as [[[out err] [e|]] w']; reflexivity.
Qed.

Lemma IsRunning_abs_err (vmxPath a : string) (e : error) (s : State W) :
  filepath_Abs vmxPath (world s) = (a, Some e) ->
  IsRunning vmxPath s =
  ((false, Some e),
   mkState (driver s) (world s) (trace s ++ [EvAbs vmxPath])).
Proof.
  intros Ha. unfold IsRunning, bind at 1, Abs. run_monad.
  now rewrite Ha.
Qed.

Lemma IsRunning_abs_ok (vmxPath a : string) (s : State W) :
  filepath_Abs vmxPath (world s) = (a, None) ->
  IsRunning vmxPath s =
  let c := exec_Command (fst (vmrunPath s)) ["-T"; "fusion"; "list"] in
  let r := cmd_Run c (world s) in
  (match snd (fst r) with
   | Some e => (false, Some e)
   | None => (anyLineIs (strings_Split (fst (fst (fst r))) LF) a, None)
   end,
   mkState (driver s) (snd r)
           (trace s ++ EvAbs vmxPath
                    :: logged c (fst (fst (fst r))) (snd (fst (fst r))))).
Proof.
  intros Ha. unfold IsRunning, bind at 1, Abs. run_monad.
  rewrite Ha. rewrite runAndLog_eq. simpl.
  destruct (cmd_Run _ _) as [[[out err] [e|]] w']; simpl;
    now rewrite <- app_assoc.
Qed.

Lemma Sprintf_app (path : string) :
  fmt_Sprintf "Fusion application not found at path: %s" [AStr path] =
  ("Fusion application not found at path: " ++ path)%string.
Proof. simpl. now rewrite append_empty_r. Qed.

Lemma Sprintf_vmrun (path : string) :
  fmt_Sprintf "Critical application 'vmrun' not found at path: %s"
              [AStr path] =
  ("Critical application 'vmrun' not found at path: " ++ path)%string.
Proof. simpl. now rewrite append_empty_r. Qed.

Lemma Sprintf_vdisk (path : string) :
  fmt_Sprintf "Critical application vdisk manager not found at path: %s"
              [AStr path] =
  ("Critical application vdisk manager not found at path: " ++ path)%string.
Proof. simpl. now rewrite append_empty_r. Qed.

Lemma stats_EvStat (l : list string) : stats (map EvStat l) = l.
Proof. induction l as [|p l IH]; simpl; [reflexivity | now rewrite IH]. Qed.

Lemma Verify_eq (s : State W) :
  Verify s =
  let w := world s in
  let app := AppPath (driver s) in
  let vmrun := fst (vmrunPath s) in
  let vdisk := fst (vdiskManagerPath s) in
  let st l := mkState (driver s) w (trace s ++ map EvStat l) in
  match snd (os_Stat app w) with
  | Some e =>
      (Some (if os_IsNotExist (Some e)
             then errorString
                    ("Fusion application not found at path: " ++ app)%string
             else e), st [app])
  | None =>
  match snd (os_Stat vmrun w) with
  | Some e =>
      (Some (if os_IsNotExist (Some e)
             then errorString
                    ("Critical application 'vmrun' not found at path: "
                     ++ vmrun)%string
             else e), st [app; vmrun])
  | None =>
  match snd (os_Stat vdisk w) with
  | Some e =>
      (Some (if os_IsNotExist (Some e)
             then errorString
                    ("Critical application vdisk manager not found at path: "
                     ++ vdisk)%string
             else e), st [app; vmrun; vdisk])
  | None => (None, st [app; vmrun; vdisk])
  end end end.
Proof.
  unfold Verify, fmt_Errorf.
  cbv [bind ret emit Stat d_AppPath vmrunPath vdiskManagerPath].
  cbn [driver world trace fst snd map].
  destruct (os_Stat (AppPath (driver s)) (world s)) as [fi [e|]];
    cbn [driver world trace fst snd].
  { destruct (os_IsNotExist (Some e)); [rewrite Sprintf_app|]; reflexivity. }
  destruct (os_Stat (filepath_Join [AppPath (driver s); _; _; "vmrun"])
                    (world s)) as [fi1 [e|]];
    cbn [driver world trace fst snd]; rewrite <- ?app_assoc.
  { destruct (os_IsNotExist (Some e)); [rewrite Sprintf_vmrun|]; reflexivity. }
  destruct (os_Stat _ _) as [fi2 [e|]];
    cbn [driver world trace fst snd]; rewrite <- ?app_assoc.
  { destruct (os_IsNotExist (Some e)); [rewrite Sprintf_vdisk|]; reflexivity. }
  reflexivity.
Qed.

End Equations.

(* ================================================================= *)
(** ** The command lines *)

Section CommandLines.

Context {W : Type} {E : Env W}.

Lemma cmd_Run_ran (c : Cmd) (w w' : W) (stdout stderr : string) (status : Z) :
  spawn c w = (Ran stdout stderr status, w') ->
  cmd_Run c w =
  ((stdout, stderr, if Z.eqb status 0 then None else Some (ExitError status)),
   w').
Proof. intros H. unfold cmd_Run. now rewrite H. Qed.

Lemma runs_logged (c : Cmd) (stdout stderr : string) :
  runs (logged c stdout stderr) = [c].
Proof. reflexivity. Qed.

(** C2.  For every output path and size, [CreateDisk] starts exactly
    one subprocess: the disk manager, with the arguments [-c -s <size>
    -a lsilogic -t 1 <output>] in this order and no others. *)
Theorem CreateDisk_command_line (s : State W) (output size : string) :
  runs (trace (snd (CreateDisk output size s))) =
  runs (trace s) ++
  [{| Path := fst (vdiskManagerPath s);
      Args := [fst (vdiskManagerPath s);
               "-c"; "-s"; size; "-a"; "lsilogic"; "-t"; "1"; output]%string |}].
Proof.
  rewrite CreateDisk_eq. cbn [snd trace fst].
  now rewrite runs_app, runs_logged.
Qed.

(** C4.  For every path, [Start] starts exactly one subprocess, the
    runner with [-T fusion start <vmxPath> gui], and [Stop] exactly one,
    the runner with [-T fusion stop <vmxPath> hard]: the last argument
    is fixed, whatever the caller passes. *)
Theorem Start_Stop_command_lines (s : State W) (vmxPath : string) :
  runs (trace (snd (Start vmxPath s))) =
  runs (trace s) ++
  [{| Path := fst (vmrunPath s);
      Args := [fst (vmrunPath s);
               "-T"; "fusion"; "start"; vmxPath; "gui"]%string |}]
  /\
  runs (trace (snd (Stop vmxPath s))) =
  runs (trace s) ++
  [{| Path := fst (vmrunPath s);
      Args := [fst (vmrunPath s);
               "-T"; "fusion"; "stop"; vmxPath; "hard"]%string |}].
Proof.
  rewrite Start_eq, Stop_eq. cbn [snd trace fst].
  now rewrite !runs_app, !runs_logged.
Qed.

End CommandLines.

(* ================================================================= *)
(** ** IsRunning *)

Section Running.

Context {W : Type} {E : Env W}.

(** C1.  When the path resolves to [abs] and the [list] subprocess
    exits with status zero, [IsRunning] returns no error and [true]
    exactly when one of the lines of the captured output, split at the
    line feeds, is [abs] itself; when every line differs from [abs], be
    it by trailing space, by case or by being relative, it returns
    [false]. *)
Theorem IsRunning_exact_line
  (s : State W) (vmxPath abs stdout stderr : string) (w' : W) :
  filepath_Abs vmxPath (world s) = (abs, None) ->
  spawn (exec_Command (fst (vmrunPath s)) ["-T"; "fusion"; "list"]%string)
        (world s) = (Ran stdout stderr 0, w') ->
  exists running : bool,
    fst (IsRunning vmxPath s) = (running, None) /\
    (running = true <-> In abs (strings_Split stdout LF)) /\
    ((forall line, In line (strings_Split stdout LF) -> line <> abs) ->
     running = false).
Proof.
  intros Habs Hrun.
  rewrite (IsRunning_abs_ok _ _ _ Habs). cbn zeta.
  rewrite (cmd_Run_ran _ _ _ _ _ _ Hrun). cbn [fst snd Z.eqb].
  exists (anyLineIs (strings_Split stdout LF) abs).
  split; [reflexivity|]. split; [apply anyLineIs_In|].
  intros Hne. destruct (anyLineIs _ abs) eqn:Hany; [|reflexivity].
  apply anyLineIs_In in Hany. now apply Hne in Hany.
Qed.

(** C8.  When the resolution of the path fails, [IsRunning] returns
    that very error with [false], starts no subprocess and leaves the
    host as it was. *)
Theorem IsRunning_resolution_error
  (s : State W) (vmxPath a : string) (e : error) :
  filepath_Abs vmxPath (world s) = (a, Some e) ->
  fst (IsRunning vmxPath s) = (false, Some e) /\
  runs (trace (snd (IsRunning vmxPath s))) = runs (trace s) /\
  world (snd (IsRunning vmxPath s)) = world s.
Proof.
  intros Habs. rewrite (IsRunning_abs_err _ _ _ _ Habs). cbn [fst snd trace world].
  rewrite runs_app. cbn [runs]. now rewrite app_nil_r.
Qed.

(** C10.  Whenever [IsRunning] returns an error, the boolean next to it
    is [false]. *)
Theorem IsRunning_error_false
  (s : State W) (vmxPath : string) (running : bool) (e : error) :
  fst (IsRunning vmxPath s) = (running, Some e) -> running = false.
Proof.
  destruct (filepath_Abs vmxPath (world s)) as [a [ea|]] eqn:Habs.
  - rewrite (IsRunning_abs_err _ _ _ _ Habs). cbn [fst]. congruence.
  - rewrite (IsRunning_abs_ok _ _ _ Habs). cbn zeta. cbn [fst].
    destruct (snd (fst (cmd_Run _ _))); congruence.
Qed.

End Running.

(* ================================================================= *)
(** ** Verify *)

Section Verification.

Context {W : Type} {E : Env W}.

Lemma stats_Verify (s : State W) (l : list string) :
  stats (trace (mkState (driver s) (world s) (trace s ++ map EvStat l))) =
  stats (trace s) ++ l.
Proof. cbn [trace]. now rewrite stats_app, stats_EvStat. Qed.

Lemma messages_differ (p q : string) :
  ("Fusion application not found at path: " ++ p
   <> "Critical application 'vmrun' not found at path: " ++ q)%string /\
  ("Fusion application not found at path: " ++ p
   <> "Critical application vdisk manager not found at path: " ++ q)%string /\
  ("Critical application 'vmrun' not found at path: " ++ p
   <> "Critical application vdisk manager not found at path: " ++ q)%string.
Proof. repeat split; simpl; intros H; discriminate H. Qed.

Ltac verify_case :=
  cbn [fst snd]; rewrite stats_Verify;
  repeat match goal with
    | |- _ /\ _ => split
    | |- _ <-> _ => split
    | |- forall p q : string, _ => exact messages_differ
    | |- _ -> _ => intro
    | H : _ /\ _ |- _ => destruct H
    | H : Some _ = None |- _ => discriminate H
    | H : os_IsNotExist None = true |- _ => discriminate H
    | H : os_IsNotExist (Some _) = true |- _ => rewrite H
    | |- _ => reflexivity
    end.

(** C5.  [Verify] returns no error exactly when [os.Stat] finds the
    bundle, the runner and the disk manager.  It asks for them in this
    order and stops at the first that is missing: a missing bundle
    gives the message that the application was not found, a missing
    tool under a bundle that is there gives the message that a critical
    application was not found, with the name and the path of the tool.
    The three messages differ from one another whatever the paths. *)
Theorem Verify_first_missing (s : State W) :
  let app := AppPath (driver s) in
  let vmrun := fst (vmrunPath s) in
  let vdisk := fst (vdiskManagerPath s) in
  let found p := snd (os_Stat p (world s)) = None in
  let missing p := os_IsNotExist (snd (os_Stat p (world s))) = true in
  let result := fst (Verify s) in
  let asked := stats (trace (snd (Verify s))) in
  (result = None <-> found app /\ found vmrun /\ found vdisk) /\
  (missing app ->
   result = Some (errorString
                    ("Fusion application not found at path: " ++ app)%string)
   /\ asked = stats (trace s) ++ [app]) /\
  (found app -> missing vmrun ->
   result = Some (errorString
                    ("Critical application 'vmrun' not found at path: "
                     ++ vmrun)%string)
   /\ asked = stats (trace s) ++ [app; vmrun]) /\
  (found app -> found vmrun -> missing vdisk ->
   result = Some (errorString
                    ("Critical application vdisk manager not found at path: "
                     ++ vdisk)%string)
   /\ asked = stats (trace s) ++ [app; vmrun; vdisk]) /\
  (found app -> found vmrun -> found vdisk ->
   asked = stats (trace s) ++ [app; vmrun; vdisk]) /\
  (forall p q : string,
     ("Fusion application not found at path: " ++ p
      <> "Critical application 'vmrun' not found at path: " ++ q)%string /\
     ("Fusion application not found at path: " ++ p
      <> "Critical application vdisk manager not found at path: " ++ q)%string /\
     ("Critical application 'vmrun' not found at path: " ++ p
      <> "Critical application vdisk manager not found at path: " ++ q)%string).
Proof.
  cbv zeta. rewrite Verify_eq. cbv zeta.
  destruct (snd (os_Stat (AppPath (driver s)) (world s))) as [e1|];
    [verify_case|].
  destruct (snd (os_Stat (fst (vmrunPath s)) (world s))) as [e2|];
    [verify_case|].
  destruct (snd (os_Stat (fst (vdiskManagerPath s)) (world s))) as [e3|];
    verify_case.
Qed.

(** C6.  When the first check of [Verify] that fails does so with an
    error that [os.IsNotExist] does not recognise, permission denied for
    one, [Verify] returns that error as it is. *)
Theorem Verify_other_error (s : State W) (e : error) :
  let app := AppPath (driver s) in
  let vmrun := fst (vmrunPath s) in
  let vdisk := fst (vdiskManagerPath s) in
  let found p := snd (os_Stat p (world s)) = None in
  let fails p := snd (os_Stat p (world s)) = Some e in
  os_IsNotExist (Some e) = false ->
  fails app \/
  (found app /\ fails vmrun) \/
  (found app /\ found vmrun /\ fails vdisk) ->
  fst (Verify s) = Some e.
Proof.
  cbv zeta. intros Hne Hfail. rewrite Verify_eq. cbv zeta.
  destruct Hfail as [H1 | [[H1 H2] | (H1 & H2 & H3)]].
  - rewrite H1. cbn [fst]. now rewrite Hne.
  - rewrite H1, H2. cbn [fst]. now rewrite Hne.
  - rewrite H1, H2, H3. cbn [fst]. now rewrite Hne.
Qed.

End Verification.

(* ================================================================= *)
(** ** Tool paths, the receiver and failing subprocesses *)

Section Paths.

Context {W : Type} {E : Env W}.

(** C7.  With [A] the bundle path of the driver at the time of a call,
    the runner is [filepath.Join(A, Contents, Library, vmrun)] and the
    disk manager [filepath.Join(A, Contents, Library,
    vmware-vdiskmanager)]: these are the programs [CreateDisk],
    [IsRunning], [Start] and [Stop] start and the files [Verify] looks
    for.  Nothing is kept from one call to the next: after a change of
    the bundle path the next call joins the new one. *)
Theorem tool_paths_joined (s : State W) :
  let vmrun (a : string) :=
    filepath_Join [a; "Contents"; "Library"; "vmrun"]%string in
  let vdisk (a : string) :=
    filepath_Join [a; "Contents"; "Library"; "vmware-vdiskmanager"]%string in
  let A := AppPath (driver s) in
  let started (s' : State W) := map Path (runs (trace s')) in
  fst (vmrunPath s) = vmrun A /\
  fst (vdiskManagerPath s) = vdisk A /\
  (forall output size,
     started (snd (CreateDisk output size s)) = started s ++ [vdisk A]) /\
  (forall vmxPath,
     started (snd (Start vmxPath s)) = started s ++ [vmrun A]) /\
  (forall vmxPath,
     started (snd (Stop vmxPath s)) = started s ++ [vmrun A]) /\
  (forall vmxPath,
     started (snd (IsRunning vmxPath s)) =
     started s ++ match snd (filepath_Abs vmxPath (world s)) with
                  | None => [vmrun A]
                  | Some _ => []
                  end) /\
  (exists n,
     stats (trace (snd (Verify s))) =
     stats (trace s) ++ firstn n [A; vmrun A; vdisk A]) /\
  (forall B p q,
     started (snd (Start q (setAppPath B (snd (Start p s))))) =
     started s ++ [vmrun A; vmrun B]) /\
  (forall B o z o' z',
     started (snd (CreateDisk o' z' (setAppPath B (snd (CreateDisk o z s))))) =
     started s ++ [vdisk A; vdisk B]).
Proof.
  cbv zeta. repeat split; intros.
  - rewrite CreateDisk_eq. cbn [snd trace fst].
    now rewrite runs_app, runs_logged, map_app.
  - rewrite Start_eq. cbn [snd trace fst].
    now rewrite runs_app, runs_logged, map_app.
  - rewrite Stop_eq. cbn [snd trace fst].
    now rewrite runs_app, runs_logged, map_app.
  - destruct (filepath_Abs vmxPath (world s)) as [a [e|]] eqn:Habs.
    + rewrite (IsRunning_abs_err _ _ _ _ Habs). cbn [snd trace].
      now rewrite runs_app, map_app.
    + rewrite (IsRunning_abs_ok _ _ _ Habs). cbn [snd trace fst].
      rewrite runs_app. cbn [runs]. now rewrite runs_logged, map_app.
  - rewrite Verify_eq. cbv zeta. rewrite !vmrunPath_eq, !vdiskManagerPath_eq.
    cbn [fst].
    destruct (snd (os_Stat (AppPath (driver s)) (world s)));
      [exists 1%nat; cbn [snd]; now rewrite stats_Verify|].
    destruct (snd (os_Stat (filepath_Join [_; _; _; "vmrun"%string]) _));
      [exists 2%nat; cbn [snd]; now rewrite stats_Verify|].
    destruct (snd (os_Stat _ _));
      exists 3%nat; cbn [snd]; now rewrite stats_Verify.
  - rewrite Start_eq. cbn [snd trace fst setAppPath driver world].
    rewrite Start_eq. cbn [snd trace fst driver world AppPath].
    rewrite !runs_app, !runs_logged, !map_app, <- app_assoc.
    reflexivity.
  - rewrite CreateDisk_eq. cbn [snd trace fst setAppPath driver world].
    rewrite CreateDisk_eq. cbn [snd trace fst driver world AppPath].
    rewrite !runs_app, !runs_logged, !map_app, <- app_assoc.
    reflexivity.
Qed.

(** C9.  No operation changes the driver object: after [CreateDisk],
    [IsRunning], [Start], [Stop] and [Verify], on every input, the
    object is the one from before the call, and so is its bundle
    path. *)
Theorem AppPath_unchanged (s : State W) :
  let same (s' : State W) :=
    driver s' = driver s /\ AppPath (driver s') = AppPath (driver s) in
  (forall output size, same (snd (CreateDisk output size s))) /\
  (forall vmxPath, same (snd (IsRunning vmxPath s))) /\
  (forall vmxPath, same (snd (Start vmxPath s))) /\
  (forall vmxPath, same (snd (Stop vmxPath s))) /\
  same (snd (Verify s)).
Proof.
  cbv zeta.
  assert (Hsame : forall s' : State W,
             driver s' = driver s ->
             driver s' = driver s /\ AppPath (driver s') = AppPath (driver s))
    by (intros s' ->; now split).
  split; [|split; [|split; [|split]]]; intros; apply Hsame.
  - now rewrite CreateDisk_eq.
  - destruct (filepath_Abs vmxPath (world s)) as [a [e|]] eqn:Habs.
    + now rewrite (IsRunning_abs_err _ _ _ _ Habs).
    + now rewrite (IsRunning_abs_ok _ _ _ Habs).
  - now rewrite Start_eq.
  - now rewrite Stop_eq.
  - rewrite Verify_eq. cbv zeta.
    destruct (snd (os_Stat (AppPath (driver s)) _)); [reflexivity|].
    destruct (snd (os_Stat (fst (vmrunPath s)) _)); [reflexivity|].
    destruct (snd (os_Stat _ _)); reflexivity.
Qed.

Lemma logs_logged (c : Cmd) (stdout stderr : string) :
  logs (logged c stdout stderr) =
  [fmt_Sprintf "Executing: %s %v" [AStr (Path c); AStrs (tl (Args c))];
   fmt_Sprintf "stdout: %s" [AStr (strings_TrimSpace stdout)];
   fmt_Sprintf "stderr: %s" [AStr (strings_TrimSpace stderr)]].
Proof. reflexivity. Qed.

Lemma Sprintf_stderr (text : string) :
  fmt_Sprintf "stderr: %s" [AStr text] = ("stderr: " ++ text)%string.
Proof. simpl. now rewrite append_empty_r. Qed.

Lemma Sprintf_stdout (text : string) :
  fmt_Sprintf "stdout: %s" [AStr text] = ("stdout: " ++ text)%string.
Proof. simpl. now rewrite append_empty_r. Qed.

Lemma exit_status_error (status : Z) :
  status <> 0%Z ->
  (if Z.eqb status 0 then None else Some (ExitError status)) =
  Some (ExitError status).
Proof. intros H. apply Z.eqb_neq in H. now rewrite H. Qed.

(** C3, as the code has it.  When the subprocess of an operation exits
    with a status other than zero, the operation returns the exit error
    of [cmd.Run] as it is.  That error holds the status and nothing
    else, and its text is [exit status <n>].  The captured standard
    error stream is not part of it: [runAndLog] hands it back next to
    the error, the operations drop it, and it goes, trimmed, to the
    log. *)
Theorem exit_error_returned
  (s : State W) (stdout stderr : string) (status : Z) (w' : W) :
  status <> 0%Z ->
  let exits (c : Cmd) := spawn c (world s) = (Ran stdout stderr status, w') in
  let vmrun := exec_Command (fst (vmrunPath s)) in
  let vdisk := exec_Command (fst (vdiskManagerPath s)) in
  let logged_by (c : Cmd) (s' : State W) :=
    logs (trace s') =
    logs (trace s) ++
    [fmt_Sprintf "Executing: %s %v" [AStr (Path c); AStrs (tl (Args c))];
     ("stdout: " ++ strings_TrimSpace stdout)%string;
     ("stderr: " ++ strings_TrimSpace stderr)%string] in
  Error (ExitError status) = ("exit status " ++ itoa status)%string /\
  (forall c, exits c ->
     fst (runAndLog c s) = (stdout, stderr, Some (ExitError status)) /\
     logged_by c (snd (runAndLog c s))) /\
  (forall output size,
     let c := vdisk ["-c"; "-s"; size; "-a"; "lsilogic"; "-t"; "1";
                     output]%string in
     exits c ->
     fst (CreateDisk output size s) = Some (ExitError status) /\
     logged_by c (snd (CreateDisk output size s))) /\
  (forall vmxPath,
     let c := vmrun ["-T"; "fusion"; "start"; vmxPath; "gui"]%string in
     exits c ->
     fst (Start vmxPath s) = Some (ExitError status) /\
     logged_by c (snd (Start vmxPath s))) /\
  (forall vmxPath,
     let c := vmrun ["-T"; "fusion"; "stop"; vmxPath; "hard"]%string in
     exits c ->
     fst (Stop vmxPath s) = Some (ExitError status) /\
     logged_by c (snd (Stop vmxPath s))) /\
  (forall vmxPath abs,
     let c := vmrun ["-T"; "fusion"; "list"]%string in
     filepath_Abs vmxPath (world s) = (abs, None) ->
     exits c ->
     fst (IsRunning vmxPath s) = (false, Some (ExitError status)) /\
     logged_by c (snd (IsRunning vmxPath s))).
Proof.
  intros Hst. cbv zeta.
  split; [reflexivity|].
  split; [|split; [|split; [|split]]].
  - intros c Hc. rewrite runAndLog_eq. cbv zeta.
    rewrite (cmd_Run_ran _ _ _ _ _ _ Hc), (exit_status_error _ Hst).
    cbn [fst snd trace].
    now rewrite logs_app, logs_logged, Sprintf_stdout, Sprintf_stderr.
  - intros output size Hc. rewrite CreateDisk_eq. cbv zeta.
    rewrite (cmd_Run_ran _ _ _ _ _ _ Hc), (exit_status_error _ Hst).
    cbn [fst snd trace].
    now rewrite logs_app, logs_logged, Sprintf_stdout, Sprintf_stderr.
  - intros vmxPath Hc. rewrite Start_eq. cbv zeta.
    rewrite (cmd_Run_ran _ _ _ _ _ _ Hc), (exit_status_error _ Hst).
    cbn [fst snd trace].
    now rewrite logs_app, logs_logged, Sprintf_stdout, Sprintf_stderr.
  - intros vmxPath Hc. rewrite Stop_eq. cbv zeta.
    rewrite (cmd_Run_ran _ _ _ _ _ _ Hc), (exit_status_error _ Hst).
    cbn [fst snd trace].
    now rewrite logs_app, logs_logged, Sprintf_stdout, Sprintf_stderr.
  - intros vmxPath abs Habs Hc. rewrite (IsRunning_abs_ok _ _ _ Habs).
    cbv zeta.
    rewrite (cmd_Run_ran _ _ _ _ _ _ Hc), (exit_status_error _ Hst).
    cbn [fst snd trace].
    rewrite logs_app. cbn [logs].
    now rewrite logs_logged, Sprintf_stdout, Sprintf_stderr.
Qed.

End Paths.

(* ================================================================= *)
(** ** The driver on the simulated host *)

Module OnHost.

Import Host.

Example Verify_mac : fst (Verify (boot mac)) = None.
Proof. reflexivity. Qed.

Example IsRunning_mac :
  fst (IsRunning "/Users/dev/vm.vmx" (boot mac)) = (true, None) /\
  fst (IsRunning "vm.vmx" (boot mac)) = (true, None) /\
  fst (IsRunning "/other/vm.vmx" (boot mac)) = (false, None).
Proof. repeat split; reflexivity. Qed.

Example IsRunning_lookalikes :
  fst (IsRunning "vm.vmx" (boot lookalikes)) = (false, None).
Proof. reflexivity. Qed.

Example Start_then_IsRunning :
  fst (bind (Start "/other/vm.vmx")
            (fun _ => IsRunning "/other/vm.vmx") (boot mac)) = (true, None).
Proof. reflexivity. Qed.

Example Stop_then_IsRunning :
  fst (bind (Stop "/Users/dev/vm.vmx")
            (fun _ => IsRunning "/Users/dev/vm.vmx") (boot mac))
  = (false, None).
Proof. reflexivity. Qed.

Example CreateDisk_log :
  logs (trace (snd (CreateDisk "/Users/dev/new.vmdk" "40000MB" (boot mac)))) =
  [("Executing: " ++ vdisk
    ++ " [-c -s 40000MB -a lsilogic -t 1 /Users/dev/new.vmdk]")%string;
   "stdout: Virtual disk creation successful."%string;
   "stderr: "%string].
Proof. reflexivity. Qed.

Example Start_without_runner :
  fst (Start "/Users/dev/vm.vmx" (boot norunner)) =
  Some (PathError "fork/exec" vmrun (Errno ENOENT)).
Proof. reflexivity. Qed.

End OnHost.

(** Witness of C1: the lookalikes are listed, none is the absolute
    path, and the theorem applies. *)
Lemma IsRunning_exact_line_witness :
  let s := Host.boot Host.lookalikes in
  let out := (Host.line "Total running VMs: 3"
              ++ Host.line "/Users/dev/vm.vmx "
              ++ Host.line "/USERS/DEV/VM.VMX"
              ++ Host.line "vm.vmx")%string in
  filepath_Abs "vm.vmx" (world s) = ("/Users/dev/vm.vmx"%string, None) /\
  spawn (exec_Command (fst (vmrunPath s)) ["-T"; "fusion"; "list"]%string)
        (world s) = (Ran out "" 0, world s) /\
  exists running : bool,
    fst (IsRunning "vm.vmx" s) = (running, None) /\
    (running = true <-> In "/Users/dev/vm.vmx"%string (strings_Split out LF)) /\
    ((forall line, In line (strings_Split out LF) ->
                   line <> "/Users/dev/vm.vmx"%string) ->
     running = false).
Proof.
  cbv zeta. split; [reflexivity|]. split; [reflexivity|].
  apply (IsRunning_exact_line (Host.boot Host.lookalikes) "vm.vmx"
           "/Users/dev/vm.vmx" _ "" Host.lookalikes); reflexivity.
Defined.

(** Witness of C8: a relative path on the machine without working
    directory. *)
Lemma IsRunning_resolution_error_witness :
  let s := Host.boot Host.lost in
  filepath_Abs "vm.vmx" (world s) = (""%string, Some (Errno ENOENT)) /\
  fst (IsRunning "vm.vmx" s) = (false, Some (Errno ENOENT)) /\
  runs (trace (snd (IsRunning "vm.vmx" s))) = runs (trace s) /\
  world (snd (IsRunning "vm.vmx" s)) = world s.
Proof.
  cbv zeta. split; [reflexivity|].
  apply (IsRunning_resolution_error (Host.boot Host.lost) "vm.vmx" "").
  reflexivity.
Defined.

(** Witness of C10: the runner is missing, [IsRunning] fails. *)
Lemma IsRunning_error_false_witness :
  let r := fst (IsRunning "vm.vmx" (Host.boot Host.norunner)) in
  r = (fst r, Some (PathError "fork/exec" Host.vmrun (Errno ENOENT))) /\
  fst r = false.
Proof.
  cbv zeta. split; [reflexivity|].
  apply (IsRunning_error_false (Host.boot Host.norunner) "vm.vmx" _
           (PathError "fork/exec" Host.vmrun (Errno ENOENT))).
  reflexivity.
Defined.

(** Witness of C5: the runner is missing under a bundle that is there. *)
Lemma Verify_first_missing_witness :
  let s := Host.boot Host.norunner in
  snd (os_Stat Host.fusion (world s)) = None /\
  os_IsNotExist (snd (os_Stat Host.vmrun (world s))) = true /\
  fst (Verify s) =
  Some (errorString
          ("Critical application 'vmrun' not found at path: "
           ++ Host.vmrun)%string) /\
  stats (trace (snd (Verify s))) = [Host.fusion; Host.vmrun].
Proof.
  cbv zeta. split; [reflexivity|]. split; [reflexivity|].
  pose proof (Verify_first_missing (Host.boot Host.norunner)) as H.
  cbv zeta in H. destruct H as (_ & _ & H & _).
  apply H; reflexivity.
Defined.

(** Witness of C6: permission denied on the bundle. *)
Lemma Verify_other_error_witness :
  let s := Host.boot Host.closed in
  let e := PathError "stat" Host.fusion (Errno EACCES) in
  os_IsNotExist (Some e) = false /\
  snd (os_Stat (AppPath (driver s)) (world s)) = Some e /\
  fst (Verify s) = Some e.
Proof.
  cbv zeta. split; [reflexivity|]. split; [reflexivity|].
  apply (Verify_other_error (Host.boot Host.closed)
           (PathError "stat" Host.fusion (Errno EACCES)));
    [reflexivity | left; reflexivity].
Defined.

(** C3 as stated fails.  The disk manager refuses to overwrite
    [/Users/dev/disk.vmdk], says so on its standard error stream and
    exits with status 1; [CreateDisk] returns [exit status 1], in which
    the text of the stream does not occur. *)
Lemma stderr_not_in_error :
  ~ (forall (s : State Host.Machine) (output size stdout stderr : string)
            (status : Z) (w' : Host.Machine),
       spawn (exec_Command (fst (vdiskManagerPath s))
                ["-c"; "-s"; size; "-a"; "lsilogic"; "-t"; "1"; output]%string)
             (world s) = (Ran stdout stderr status, w') ->
       status <> 0%Z ->
       exists e : error,
         fst (CreateDisk output size s) = Some e /\
         strings_Contains (Error e) stderr = true).
Proof.
  intros claim.
  destruct (claim (Host.boot Host.mac) "/Users/dev/disk.vmdk"%string
              "40000MB"%string ""%string
              (Host.line "Failed to create disk: The file already exists")
              1%Z Host.mac eq_refl)
    as (e & He & Hin); [discriminate|].
  vm_compute in He. injection He as <-.
  vm_compute in Hin. discriminate Hin.
Qed.

(** Witness of the amended C3, on the same refused disk. *)
Lemma exit_error_returned_witness :
  let s := Host.boot Host.mac in
  let c := exec_Command Host.vdisk
             ["-c"; "-s"; "40000MB"; "-a"; "lsilogic"; "-t"; "1";
              "/Users/dev/disk.vmdk"]%string in
  let stderr := Host.line "Failed to create disk: The file already exists" in
  1%Z <> 0%Z /\
  spawn c (world s) = (Ran "" stderr 1, world s) /\
  fst (CreateDisk "/Users/dev/disk.vmdk" "40000MB" s) = Some (ExitError 1) /\
  logs (trace (snd (CreateDisk "/Users/dev/disk.vmdk" "40000MB" s))) =
  [fmt_Sprintf "Executing: %s %v" [AStr (Path c); AStrs (tl (Args c))];
   "stdout: "%string;
   "stderr: Failed to create disk: The file already exists"%string].
Proof.
  cbv zeta. split; [discriminate|]. split; [reflexivity|].
  pose proof (exit_error_returned (Host.boot Host.mac) ""
                (Host.line "Failed to create disk: The file already exists")
                1 Host.mac) as H.
  cbv zeta in H. destruct H as (_ & _ & H & _); [discriminate|].
  apply (H "/Users/dev/disk.vmdk"%string "40000MB"%string). reflexivity.
Defined.

(* ================================================================= *)
(** ** Lines: [strings.Split] against [strings.Join] *)

Section Lines.

Variable sep : ascii.

Let seps : string := String sep EmptyString.

Lemma strings_HasPrefix_empty (s : string) : strings_HasPrefix s "" = true.
Proof. now destruct s. Qed.

Lemma append_assoc (a b c : string) : ((a ++ b) ++ c = a ++ (b ++ c))%string.
Proof. induction a as [|x a IH]; simpl; [reflexivity | now rewrite IH]. Qed.

(** Splitting distributes over a separator. *)
Lemma strings_Split_app (a b : string) :
  strings_Split (a ++ String sep b)%string sep =
  strings_Split a sep ++ strings_Split b sep.
Proof.
  induction a as [|c a IH]; simpl.
  - now rewrite Ascii.eqb_refl.
  - destruct (Ascii.eqb c sep); rewrite IH; [reflexivity|].
    destruct (strings_Split a sep) as [|p ps] eqn:Ha; [|reflexivity].
    now apply strings_Split_nonempty in Ha.
Qed.

(** A string without separator is one piece. *)
Lemma strings_Split_whole (x : string) :
  strings_Contains x seps = false -> strings_Split x sep = [x].
Proof.
  induction x as [|c x IH]; simpl; [reflexivity|].
  rewrite strings_HasPrefix_empty.
  destruct (Ascii.eqb c sep); simpl; [discriminate|].
  intros H. now rewrite (IH H).
Qed.

(** Splitting what was joined gives the pieces back. *)
Lemma strings_Split_Join (pieces : list string) :
  pieces <> [] ->
  (forall p, In p pieces -> strings_Contains p seps = false) ->
  strings_Split (strings_Join pieces seps) sep = pieces.
Proof.
  induction pieces as [|x rest IH]; [congruence|]. intros _ Hfree.
  destruct rest as [|y rest].
  - simpl. apply strings_Split_whole, Hfree. now left.
  - change (strings_Join (x :: y :: rest) seps)
      with (x ++ String sep (strings_Join (y :: rest) seps))%string.
    rewrite strings_Split_app, IH.
    + rewrite strings_Split_whole; [reflexivity | apply Hfree; now left].
    + discriminate.
    + intros p Hp. apply Hfree. now right.
Qed.

(** A joined list around one of its elements. *)
Lemma strings_Join_around (before after : list string) (x : string) :
  strings_Join (before ++ x :: after) seps =
  ((match before with [] => "" | _ => strings_Join before seps ++ seps end)
   ++ x
   ++ (match after with [] => "" | _ => String sep (strings_Join after seps) end)
  )%string.
Proof.
  induction before as [|b before IH].
  - destruct after; simpl; [now rewrite append_empty_r | reflexivity].
  - change ((b :: before) ++ x :: after) with (b :: (before ++ x :: after)).
    destruct before as [|b' before].
    + change (strings_Join (b :: [] ++ x :: after) seps)
        with (b ++ String sep (strings_Join ([] ++ x :: after) seps))%string.
      rewrite IH. simpl. now rewrite append_assoc.
    + change (strings_Join (b :: (b' :: before) ++ x :: after) seps)
        with (b ++ String sep
                (strings_Join ((b' :: before) ++ x :: after) seps))%string.
      rewrite IH.
      change (strings_Join (b :: b' :: before) seps)
        with (b ++ String sep (strings_Join (b' :: before) seps))%string.
      rewrite !append_assoc. simpl. now rewrite ?append_assoc.
Qed.

(** The pieces of [s] are the strings without separator that stand in
    [s] as whole pieces. *)
Lemma strings_Split_In (s x : string) :
  In x (strings_Split s sep) <->
  strings_Contains x seps = false /\ whole_piece sep x s.
Proof.
  split.
  - intros Hin. split; [now apply (strings_Split_pieces s)|].
    destruct (in_split _ _ Hin) as (l1 & l2 & Hs).
    pose proof (strings_Join_Split s sep) as Hj.
    rewrite Hs, strings_Join_around in Hj.
    eexists _, _. split; [symmetry; exact Hj|]. split.
    + destruct l1; [now left | right; eauto].
    + destruct l2; [now left | right; eauto].
  - intros (Hfree & before & after & -> & Hb & Ha).
    destruct Hb as [-> | (b & ->)]; destruct Ha as [-> | (a & ->)]; simpl.
    + rewrite append_empty_r, strings_Split_whole by assumption. now left.
    + rewrite strings_Split_app, strings_Split_whole by assumption. now left.
    + rewrite append_empty_r, append_assoc. simpl.
      rewrite strings_Split_app, (strings_Split_whole x) by assumption.
      apply in_or_app. right. now left.
    + rewrite append_assoc. simpl.
      rewrite !strings_Split_app, (strings_Split_whole x) by assumption.
      apply in_or_app. right. now left.
Qed.

End Lines.

(* ================================================================= *)
(** ** Running a tool: outcomes and events *)

Section Outcomes.

Context {W : Type} {E : Env W}.

Lemma cmd_Run_nil (c : Cmd) (w : W) :
  snd (fst (cmd_Run c w)) = None <->
  exists stdout stderr w', spawn c w = (Ran stdout stderr 0, w').
Proof.
  unfold cmd_Run. destruct (spawn c w) as [[e | out err st] w']; cbn [fst snd].
  - split; [discriminate | intros (? & ? & ? & H); discriminate H].
  - destruct (Z.eqb_spec st 0) as [-> | Hst].
    + split; [eauto | reflexivity].
    + split; [discriminate|].
      intros (? & ? & ? & H). injection H as _ _ Hs _. contradiction.
Qed.

Lemma cmd_Run_world (c : Cmd) (w : W) :
  snd (cmd_Run c w) = snd (spawn c w).
Proof. unfold cmd_Run. now destruct (spawn c w) as [[e | out err st] w']. Qed.

Lemma cmd_Run_failed (c : Cmd) (w w' : W) (e : error) :
  spawn c w = (LaunchFailed e, w') ->
  cmd_Run c w = (("", "", Some e)%string, w').
Proof. intros H. unfold cmd_Run. now rewrite H. Qed.

(** [CreateDisk], [Start] and [Stop] return no error exactly when their
    subprocess started and exited with status zero, whatever it wrote;
    [IsRunning] returns no error exactly when, besides, the path
    resolved.  In every case the host is left as the subprocess left
    it. *)
Theorem nil_iff_exit_zero (s : State W) :
  let ok (c : Cmd) :=
    exists stdout stderr w', spawn c (world s) = (Ran stdout stderr 0, w') in
  let left_by (c : Cmd) (s' : State W) :=
    world s' = snd (spawn c (world s)) in
  let vmrun := exec_Command (fst (vmrunPath s)) in
  let vdisk := exec_Command (fst (vdiskManagerPath s)) in
  (forall output size,
     let c := vdisk ["-c"; "-s"; size; "-a"; "lsilogic"; "-t"; "1";
                     output]%string in
     (fst (CreateDisk output size s) = None <-> ok c) /\
     left_by c (snd (CreateDisk output size s))) /\
  (forall vmxPath,
     let c := vmrun ["-T"; "fusion"; "start"; vmxPath; "gui"]%string in
     (fst (Start vmxPath s) = None <-> ok c) /\
     left_by c (snd (Start vmxPath s))) /\
  (forall vmxPath,
     let c := vmrun ["-T"; "fusion"; "stop"; vmxPath; "hard"]%string in
     (fst (Stop vmxPath s) = None <-> ok c) /\
     left_by c (snd (Stop vmxPath s))) /\
  (forall vmxPath,
     let c := vmrun ["-T"; "fusion"; "list"]%string in
     (snd (fst (IsRunning vmxPath s)) = None <->
      snd (filepath_Abs vmxPath (world s)) = None /\ ok c) /\
     (snd (filepath_Abs vmxPath (world s)) = None ->
      left_by c (snd (IsRunning vmxPath s)))).
Proof.
  cbv zeta. split; [|split; [|split]].
  - intros output size. rewrite CreateDisk_eq. cbv zeta. cbn [fst snd world].
    split; [apply cmd_Run_nil | apply cmd_Run_world].
  - intros vmxPath. rewrite Start_eq. cbv zeta. cbn [fst snd world].
    split; [apply cmd_Run_nil | apply cmd_Run_world].
  - intros vmxPath. rewrite Stop_eq. cbv zeta. cbn [fst snd world].
    split; [apply cmd_Run_nil | apply cmd_Run_world].
  - intros vmxPath.
    destruct (filepath_Abs vmxPath (world s)) as [a [e|]] eqn:Habs.
    + rewrite (IsRunning_abs_err _ _ _ _ Habs). cbn [fst snd].
      split; [|discriminate].
      split; [discriminate | intros [H _]; discriminate H].
    + rewrite (IsRunning_abs_ok _ _ _ Habs). cbv zeta. cbn [fst snd world].
      split; [|intros _; apply cmd_Run_world].
      rewrite <- cmd_Run_nil.
      destruct (snd (fst (cmd_Run _ _))); cbn [snd];
        split; try tauto; try discriminate.
Qed.

(** When the subprocess cannot be started, the error of the launch is
    what the operation returns, as it is; [runAndLog] returns two empty
    streams with it and [IsRunning] the boolean [false]. *)
Theorem launch_error_returned (s : State W) (e : error) (w' : W) :
  let fails (c : Cmd) := spawn c (world s) = (LaunchFailed e, w') in
  let vmrun := exec_Command (fst (vmrunPath s)) in
  let vdisk := exec_Command (fst (vdiskManagerPath s)) in
  (forall c, fails c ->
     fst (runAndLog c s) = (""%string, ""%string, Some e)) /\
  (forall output size,
     fails (vdisk ["-c"; "-s"; size; "-a"; "lsilogic"; "-t"; "1";
                   output]%string) ->
     fst (CreateDisk output size s) = Some e) /\
  (forall vmxPath,
     fails (vmrun ["-T"; "fusion"; "start"; vmxPath; "gui"]%string) ->
     fst (Start vmxPath s) = Some e) /\
  (forall vmxPath,
     fails (vmrun ["-T"; "fusion"; "stop"; vmxPath; "hard"]%string) ->
     fst (Stop vmxPath s) = Some e) /\
  (forall vmxPath abs,
     filepath_Abs vmxPath (world s) = (abs, None) ->
     fails (vmrun ["-T"; "fusion"; "list"]%string) ->
     fst (IsRunning vmxPath s) = (false, Some e)).
Proof.
  cbv zeta. split; [|split; [|split; [|split]]].
  - intros c Hc. rewrite runAndLog_eq. cbv zeta.
    now rewrite (cmd_Run_failed _ _ _ _ Hc).
  - intros output size Hc. rewrite CreateDisk_eq. cbv zeta.
    now rewrite (cmd_Run_failed _ _ _ _ Hc).
  - intros vmxPath Hc. rewrite Start_eq. cbv zeta.
    now rewrite (cmd_Run_failed _ _ _ _ Hc).
  - intros vmxPath Hc. rewrite Stop_eq. cbv zeta.
    now rewrite (cmd_Run_failed _ _ _ _ Hc).
  - intros vmxPath abs Habs Hc. rewrite (IsRunning_abs_ok _ _ _ Habs).
    cbv zeta. now rewrite (cmd_Run_failed _ _ _ _ Hc).
Qed.

Lemma Sprintf_Executing (path : string) (args : list string) :
  fmt_Sprintf "Executing: %s %v" [AStr path; AStrs args] =
  ("Executing: " ++ path ++ " [" ++ strings_Join args " " ++ "]")%string.
Proof.
  simpl. now rewrite append_empty_r.
Qed.

(** One call of [runAndLog] asks four things of the host, in this
    order: a log line with the program and its arguments between
    brackets, the run itself, a log line with the trimmed output and
    one with the trimmed error stream.  [CreateDisk], [Start] and
    [Stop] ask nothing else; [IsRunning] only resolves the path
    before. *)
Theorem runAndLog_events (s : State W) :
  let events (c : Cmd) (from : State W) :=
    let r := fst (fst (cmd_Run c (world from))) in
    [EvLog ("Executing: " ++ Path c ++ " ["
            ++ strings_Join (tl (Args c)) " " ++ "]")%string;
     EvRun c;
     EvLog ("stdout: " ++ strings_TrimSpace (fst r))%string;
     EvLog ("stderr: " ++ strings_TrimSpace (snd r))%string] in
  let vmrun := exec_Command (fst (vmrunPath s)) in
  let vdisk := exec_Command (fst (vdiskManagerPath s)) in
  (forall c,
     trace (snd (runAndLog c s)) = trace s ++ events c s /\
     (fst (runAndLog c s), world (snd (runAndLog c s)))
     = cmd_Run c (world s)) /\
  (forall output size,
     trace (snd (CreateDisk output size s)) =
     trace s ++ events (vdisk ["-c"; "-s"; size; "-a"; "lsilogic"; "-t"; "1";
                               output]%string) s) /\
  (forall vmxPath,
     trace (snd (Start vmxPath s)) =
     trace s ++ events (vmrun ["-T"; "fusion"; "start"; vmxPath;
                               "gui"]%string) s) /\
  (forall vmxPath,
     trace (snd (Stop vmxPath s)) =
     trace s ++ events (vmrun ["-T"; "fusion"; "stop"; vmxPath;
                               "hard"]%string) s) /\
  (forall vmxPath,
     trace (snd (IsRunning vmxPath s)) =
     trace s ++ EvAbs vmxPath ::
       match snd (filepath_Abs vmxPath (world s)) with
       | Some _ => []
       | None => events (vmrun ["-T"; "fusion"; "list"]%string) s
       end).
Proof.
  cbv zeta.
  assert (Hev : forall c out err,
             logged c out err =
             [EvLog ("Executing: " ++ Path c ++ " ["
                     ++ strings_Join (tl (Args c)) " " ++ "]")%string;
              EvRun c;
              EvLog ("stdout: " ++ strings_TrimSpace out)%string;
              EvLog ("stderr: " ++ strings_TrimSpace err)%string]).
  { intros c out err. unfold logged.
    now rewrite Sprintf_Executing, Sprintf_stdout, Sprintf_stderr. }
  split; [|split; [|split; [|split]]].
  - intros c. rewrite runAndLog_eq. cbv zeta. cbn [fst snd trace world].
    rewrite Hev. split; [reflexivity|].
    now destruct (cmd_Run c (world s)).
  - intros output size. rewrite CreateDisk_eq. cbv zeta. cbn [snd trace].
    now rewrite Hev.
  - intros vmxPath. rewrite Start_eq. cbv zeta. cbn [snd trace].
    now rewrite Hev.
  - intros vmxPath. rewrite Stop_eq. cbv zeta. cbn [snd trace].
    now rewrite Hev.
  - intros vmxPath.
    destruct (filepath_Abs vmxPath (world s)) as [a [e|]] eqn:Habs.
    + now rewrite (IsRunning_abs_err _ _ _ _ Habs).
    + rewrite (IsRunning_abs_ok _ _ _ Habs). cbv zeta. cbn [snd trace].
      now rewrite Hev.
Qed.

End Outcomes.

(* ================================================================= *)
(** ** More on IsRunning and Verify *)

Section Listing.

Context {W : Type} {E : Env W}.

(** Once the path has resolved, [IsRunning] starts exactly one
    subprocess, the runner with [-T fusion list] and nothing more: the
    path asked about is not on its command line. *)
Theorem IsRunning_command_line (s : State W) (vmxPath abs : string) :
  filepath_Abs vmxPath (world s) = (abs, None) ->
  runs (trace (snd (IsRunning vmxPath s))) =
  runs (trace s) ++
  [{| Path := fst (vmrunPath s);
      Args := [fst (vmrunPath s); "-T"; "fusion"; "list"]%string |}].
Proof.
  intros Habs. rewrite (IsRunning_abs_ok _ _ _ Habs). cbv zeta.
  cbn [snd trace]. rewrite runs_app. cbn [runs]. now rewrite runs_logged.
Qed.

(** A path whose absolute form holds a line feed is never reported as
    running, whatever the runner prints. *)
Theorem IsRunning_line_feed (s : State W) (vmxPath abs : string) :
  filepath_Abs vmxPath (world s) = (abs, None) ->
  strings_Contains abs (String LF "") = true ->
  fst (fst (IsRunning vmxPath s)) = false.
Proof.
  intros Habs Hlf. rewrite (IsRunning_abs_ok _ _ _ Habs). cbv zeta.
  cbn [fst]. destruct (snd (fst (cmd_Run _ _))); [reflexivity|]. cbn [fst].
  destruct (anyLineIs _ abs) eqn:Hany; [|reflexivity].
  apply anyLineIs_In, strings_Split_pieces in Hany. congruence.
Qed.

(** On a successful listing, [IsRunning] returns [true] exactly when
    the absolute path holds no line feed and stands in the raw output
    as a whole line: from the start of the output or from just after a
    line feed, up to the end of the output or to just before a line
    feed. *)
Theorem IsRunning_whole_line
  (s : State W) (vmxPath abs stdout stderr : string) (w' : W) :
  filepath_Abs vmxPath (world s) = (abs, None) ->
  spawn (exec_Command (fst (vmrunPath s)) ["-T"; "fusion"; "list"]%string)
        (world s) = (Ran stdout stderr 0, w') ->
  fst (IsRunning vmxPath s) = (true, None) <->
  strings_Contains abs (String LF "") = false /\ whole_piece LF abs stdout.
Proof.
  intros Habs Hrun. rewrite (IsRunning_abs_ok _ _ _ Habs). cbv zeta.
  rewrite (cmd_Run_ran _ _ _ _ _ _ Hrun). cbn [fst snd Z.eqb].
  rewrite <- strings_Split_In, <- anyLineIs_In.
  split; [congruence | now intros ->].
Qed.

(** Splitting undoes joining: when the runner prints [pieces] with a
    line feed between them, none of them holding a line feed,
    [IsRunning] returns [true] exactly when the absolute path is one of
    the pieces.  An output whose last line ends in a line feed has the
    empty string as its last piece. *)
Theorem IsRunning_listed
  (s : State W) (vmxPath abs stderr : string) (pieces : list string) (w' : W) :
  pieces <> [] ->
  (forall p, In p pieces -> strings_Contains p (String LF "") = false) ->
  filepath_Abs vmxPath (world s) = (abs, None) ->
  spawn (exec_Command (fst (vmrunPath s)) ["-T"; "fusion"; "list"]%string)
        (world s) = (Ran (strings_Join pieces (String LF "")) stderr 0, w') ->
  fst (IsRunning vmxPath s) = (true, None) <-> In abs pieces.
Proof.
  intros Hne Hfree Habs Hrun. rewrite (IsRunning_abs_ok _ _ _ Habs). cbv zeta.
  rewrite (cmd_Run_ran _ _ _ _ _ _ Hrun). cbn [fst snd Z.eqb].
  rewrite (strings_Split_Join LF pieces Hne Hfree), <- anyLineIs_In.
  split; [congruence | now intros ->].
Qed.

Lemma Verify_state (s : State W) :
  exists asked : list string,
    snd (Verify s) = mkState (driver s) (world s) (trace s ++ map EvStat asked).
Proof.
  rewrite Verify_eq. cbv zeta.
  destruct (snd (os_Stat (AppPath (driver s)) _)); [eexists; reflexivity|].
  destruct (snd (os_Stat (fst (vmrunPath s)) _)); [eexists; reflexivity|].
  destruct (snd (os_Stat _ _)); eexists; reflexivity.
Qed.

Lemma runs_map_EvStat (l : list string) : runs (map EvStat l) = [].
Proof. induction l as [|p l IH]; simpl; [reflexivity | exact IH]. Qed.

Lemma logs_map_EvStat (l : list string) : logs (map EvStat l) = [].
Proof. induction l as [|p l IH]; simpl; [reflexivity | exact IH]. Qed.

(** [Verify] only looks: it starts no subprocess, writes no log line
    and leaves the host as it was.  So a second [Verify] returns what
    the first did, and an operation after [Verify] returns what it
    would have returned without it. *)
Theorem Verify_only_looks (s : State W) :
  let s' := snd (Verify s) in
  world s' = world s /\
  runs (trace s') = runs (trace s) /\
  logs (trace s') = logs (trace s) /\
  fst (Verify s') = fst (Verify s) /\
  (forall output size,
     fst (CreateDisk output size s') = fst (CreateDisk output size s)) /\
  (forall vmxPath, fst (IsRunning vmxPath s') = fst (IsRunning vmxPath s)) /\
  (forall vmxPath, fst (Start vmxPath s') = fst (Start vmxPath s)) /\
  (forall vmxPath, fst (Stop vmxPath s') = fst (Stop vmxPath s)).
Proof.
  cbv zeta. destruct (Verify_state s) as (asked & ->).
  cbn [world trace].
  rewrite runs_app, logs_app, runs_map_EvStat, logs_map_EvStat, !app_nil_r.
  repeat split; intros.
  - rewrite !Verify_eq. cbv zeta.
    rewrite !vmrunPath_eq, !vdiskManagerPath_eq. cbn [driver world fst].
    destruct (snd (os_Stat (AppPath (driver s)) (world s)));
      [reflexivity|].
    destruct (snd (os_Stat (filepath_Join [_; _; _; "vmrun"%string])
                           (world s))); [reflexivity|].
    destruct (snd (os_Stat _ (world s))); reflexivity.
  - now rewrite !CreateDisk_eq.
  - destruct (filepath_Abs vmxPath (world s)) as [a [e|]] eqn:Habs.
    + now rewrite !(IsRunning_abs_err _ a e) by exact Habs.
    + now rewrite !(IsRunning_abs_ok _ a) by exact Habs.
  - now rewrite !Start_eq.
  - now rewrite !Stop_eq.
Qed.

(** [Verify] never returns an error that [os.IsNotExist] recognises:
    where [os.Stat] reports such an error, [Verify] returns a fresh
    error that holds a message only. *)
Theorem Verify_not_IsNotExist (s : State W) :
  os_IsNotExist (fst (Verify s)) = false.
Proof.
  rewrite Verify_eq. cbv zeta.
  destruct (snd (os_Stat (AppPath (driver s)) _)) as [e|]; cbn [fst].
  { now destruct (os_IsNotExist (Some e)) eqn:He. }
  destruct (snd (os_Stat (fst (vmrunPath s)) _)) as [e|]; cbn [fst].
  { now destruct (os_IsNotExist (Some e)) eqn:He. }
  destruct (snd (os_Stat _ _)) as [e|]; cbn [fst]; [|reflexivity].
  now destruct (os_IsNotExist (Some e)) eqn:He.
Qed.

End Listing.

(* ================================================================= *)
(** ** Sequences of calls *)

Section Sequences.

Context {W : Type} {E : Env W}.



End Sequences.

(** The runner lists one machine on the simulated Mac: [IsRunning]
    starts [vmrun -T fusion list]. *)
Lemma IsRunning_command_line_witness :
  let s := Host.boot Host.mac in
  filepath_Abs "vm.vmx" (world s) = ("/Users/dev/vm.vmx"%string, None) /\
  runs (trace (snd (IsRunning "vm.vmx" s))) =
  [{| Path := Host.vmrun;
      Args := [Host.vmrun; "-T"; "fusion"; "list"]%string |}].
Proof.
  cbv zeta. split; [reflexivity|].
  exact (IsRunning_command_line (Host.boot Host.mac) "vm.vmx"
           "/Users/dev/vm.vmx" eq_refl).
Defined.

(** The machine named over two lines is running and listed, and is not
    reported. *)
Lemma IsRunning_line_feed_witness :
  let s := Host.boot Host.odd in
  Host.powered (world s) = [Host.twoLines] /\
  filepath_Abs Host.twoLines (world s) = (Host.twoLines, None) /\
  strings_Contains Host.twoLines (String LF "") = true /\
  fst (fst (IsRunning Host.twoLines s)) = false.
Proof.
  cbv zeta. split; [reflexivity|]. split; [reflexivity|].
  split; [reflexivity|].
  apply (IsRunning_line_feed (Host.boot Host.odd) Host.twoLines
           Host.twoLines); reflexivity.
Defined.

(** On the simulated Mac the path stands between the count line and
    the final line feed. *)
Lemma IsRunning_whole_line_witness :
  let s := Host.boot Host.mac in
  let out := (Host.line "Total running VMs: 1"
              ++ Host.line "/Users/dev/vm.vmx")%string in
  filepath_Abs "vm.vmx" (world s) = ("/Users/dev/vm.vmx"%string, None) /\
  spawn (exec_Command (fst (vmrunPath s)) ["-T"; "fusion"; "list"]%string)
        (world s) = (Ran out "" 0, world s) /\
  (fst (IsRunning "vm.vmx" s) = (true, None) <->
   strings_Contains "/Users/dev/vm.vmx" (String LF "") = false /\
   whole_piece LF "/Users/dev/vm.vmx" out).
Proof.
  cbv zeta. split; [reflexivity|]. split; [reflexivity|].
  apply (IsRunning_whole_line (Host.boot Host.mac) "vm.vmx"
           "/Users/dev/vm.vmx" _ "" Host.mac); reflexivity.
Defined.

(** The output of the simulated runner is three pieces, the last one
    empty. *)
Lemma IsRunning_listed_witness :
  let s := Host.boot Host.mac in
  let pieces := ["Total running VMs: 1"; "/Users/dev/vm.vmx"; ""]%string in
  pieces <> [] /\
  (forall p, In p pieces -> strings_Contains p (String LF "") = false) /\
  filepath_Abs "vm.vmx" (world s) = ("/Users/dev/vm.vmx"%string, None) /\
  spawn (exec_Command (fst (vmrunPath s)) ["-T"; "fusion"; "list"]%string)
        (world s) = (Ran (strings_Join pieces (String LF "")) "" 0, world s) /\
  (fst (IsRunning "vm.vmx" s) = (true, None) <->
   In "/Users/dev/vm.vmx"%string pieces).
Proof.
  assert (Hfree : forall p,
             In p ["Total running VMs: 1"; "/Users/dev/vm.vmx"; ""]%string ->
             strings_Contains p (String LF "") = false).
  { intros p [<- | [<- | [<- | []]]]; reflexivity. }
  cbv zeta. split; [discriminate|]. split; [exact Hfree|].
  split; [reflexivity|]. split; [reflexivity|].
  apply (IsRunning_listed (Host.boot Host.mac) "vm.vmx" "/Users/dev/vm.vmx"
           "" _ Host.mac); [discriminate | exact Hfree | reflexivity
                           | reflexivity].
Defined.

(** Without the runner, [Start] returns the error of the launch. *)
Lemma launch_error_returned_witness :
  let s := Host.boot Host.norunner in
  let e := PathError "fork/exec" Host.vmrun (Errno ENOENT) in
  spawn (exec_Command (fst (vmrunPath s))
           ["-T"; "fusion"; "start"; "/Users/dev/vm.vmx"; "gui"]%string)
        (world s) = (LaunchFailed e, world s) /\
  fst (Start "/Users/dev/vm.vmx" s) = Some e.
Proof.
  cbv zeta. split; [reflexivity|].
  pose proof (launch_error_returned (Host.boot Host.norunner)
                (PathError "fork/exec" Host.vmrun (Errno ENOENT))
                Host.norunner) as H.
  cbv zeta in H. destruct H as (_ & _ & H & _).
  apply H. reflexivity.
Defined.

(** On the simulated Mac [Stop] of the running machine exits with
    status zero, and [Stop] returns no error. *)
Lemma nil_iff_exit_zero_witness :
  let s := Host.boot Host.mac in
  (exists stdout stderr w',
     spawn (exec_Command (fst (vmrunPath s))
              ["-T"; "fusion"; "stop"; "/Users/dev/vm.vmx"; "hard"]%string)
           (world s) = (Ran stdout stderr 0, w')) /\
  fst (Stop "/Users/dev/vm.vmx" s) = None.
Proof.
  assert (Hok : exists stdout stderr w',
             spawn (exec_Command (fst (vmrunPath (Host.boot Host.mac)))
                      ["-T"; "fusion"; "stop"; "/Users/dev/vm.vmx";
                       "hard"]%string)
                   (world (Host.boot Host.mac)) = (Ran stdout stderr 0, w')).
  { eexists _, _, _. reflexivity. }
  cbv zeta. split; [exact Hok|].
  pose proof (nil_iff_exit_zero (Host.boot Host.mac)) as H.
  cbv zeta in H. destruct H as (_ & _ & H & _).
  apply (H "/Users/dev/vm.vmx"%string). exact Hok.
Defined.
